(** * Daily Collection Tracker: the loan ledger of [app.py]

    A shallow embedding of the business logic of [app.py] ([add_loan],
    [add_collection], [save_all_data] and the sheet loaders) and the
    properties of the loan life cycle proved about it.

    Modelling conventions.
    - A worksheet read by [read_sheet] is the list of its rows, in order; a
      row is a record with one field per column.  The frame index is the
      default [RangeIndex], so a row label is its position in the list.
    - The three worksheets and the wall clock form the [World]; the code is
      written in a state-and-exception monad over it, and a Python exception
      leaves the world as it was when it was raised.
    - Amounts are exact integers ([Z]); rounding of binary floating point is
      not modelled.
    - [datetime] is CPython's: a proleptic Gregorian day ordinal between
      0001-01-01 and 9999-12-31 and a time of day. *)

From Stdlib Require Import ZArith Lia Ascii String.
From Stdlib Require Import Decimal DecimalString DecimalNat.
From stdpp Require Import base option list strings.

Open Scope Z_scope.

(** ** Text formatting *)

Module Fmt.

(** [str(n)] for a natural number. *)
Definition str (n : nat) : string :=
  NilEmpty.string_of_uint (Nat.to_uint n).

Fixpoint zeros (k : nat) : string :=
  match k with
  | O => EmptyString
  | S k' => String "0"%char (zeros k')
  end.

(** The format specification [0wd] on a non-negative integer: decimal digits,
    left-padded with zeros to width [w], never truncated. *)
Definition zfill (w : nat) (n : nat) : string :=
  let s := str n in zeros (w - String.length s) +:+ s.

(** Reading a padded number back; only used to state injectivity. *)
Definition parse (s : string) : option nat :=
  Nat.of_uint <$> NilEmpty.uint_of_string s.

End Fmt.

(** [f"L{n:04d}"] and [f"C{n:05d}"]. *)
Definition loan_id_of (n : nat) : string := "L" +:+ Fmt.zfill 4 n.
Definition collection_id_of (n : nat) : string := "C" +:+ Fmt.zfill 5 n.

(** ** Dates and times *)

Inductive exn := KeyError | IndexError | OverflowError.

(** [LookupError] is the base class of [KeyError] and [IndexError]. *)
Definition LookupError (e : exn) : bool :=
  match e with
  | KeyError | IndexError => true
  | OverflowError => false
  end.

Record datetime := mk_datetime {
  toordinal : Z;
  hour : Z;
  minute : Z;
  second : Z
}.

Module Calendar.

Definition MAXORDINAL : Z := 3652059.

Definition is_leap (y : Z) : bool :=
  (y mod 4 =? 0) && (negb (y mod 100 =? 0) || (y mod 400 =? 0)).

Definition days_before_year (y : Z) : Z :=
  let y := y - 1 in y * 365 + y / 4 - y / 100 + y / 400.

(** [_DAYS_IN_MONTH]: the lengths of the months of a common year. *)
Definition DAYS_IN_MONTH (m : Z) : Z :=
  if m =? 2 then 28
  else if (m =? 4) || (m =? 6) || (m =? 9) || (m =? 11) then 30
  else 31.

(** [_DAYS_BEFORE_MONTH]: days of a common year before the first of the
    month. *)
Definition DAYS_BEFORE_MONTH (m : Z) : Z :=
  match m with
  | 1 => 0 | 2 => 31 | 3 => 59 | 4 => 90 | 5 => 120 | 6 => 151
  | 7 => 181 | 8 => 212 | 9 => 243 | 10 => 273 | 11 => 304 | 12 => 334
  | _ => 0
  end.

Definition days_before_month (y m : Z) : Z :=
  DAYS_BEFORE_MONTH m + (if (2 <? m) && is_leap y then 1 else 0).

Definition ymd2ord (y m d : Z) : Z :=
  days_before_year y + days_before_month y m + d.

(** [_ord2ymd]: the year, month and day of an ordinal. *)
Definition ord2ymd (n : Z) : Z * Z * Z :=
  let n := n - 1 in
  let n400 := n / 146097 in
  let n := n mod 146097 in
  let n100 := n / 36524 in
  let n := n mod 36524 in
  let n4 := n / 1461 in
  let n := n mod 1461 in
  let n1 := n / 365 in
  let n := n mod 365 in
  let year := n400 * 400 + 1 + n100 * 100 + n4 * 4 + n1 in
  if (n1 =? 4) || (n100 =? 4) then (year - 1, 12, 31)
  else
    let leapyear := (n1 =? 3) && (negb (n4 =? 24) || (n100 =? 3)) in
    let month := Z.shiftr (n + 50) 5 in
    let preceding :=
      DAYS_BEFORE_MONTH month + (if (2 <? month) && leapyear then 1 else 0) in
    if n <? preceding then
      let month := month - 1 in
      let preceding :=
        preceding - (DAYS_IN_MONTH month
                     + (if (month =? 2) && leapyear then 1 else 0)) in
      (year, month, n - preceding + 1)
    else (year, month, n - preceding + 1).

Definition digits (w : nat) (z : Z) : string := Fmt.zfill w (Z.to_nat z).

(** [strftime("%Y-%m-%d")], the year written with four digits. *)
Definition strftime_date (d : datetime) : string :=
  let '(y, m, dd) := ord2ymd (toordinal d) in
  digits 4 y +:+ "-" +:+ digits 2 m +:+ "-" +:+ digits 2 dd.

(** [strftime("%Y-%m-%d %H:%M:%S")]. *)
Definition strftime_datetime (d : datetime) : string :=
  strftime_date d +:+ " " +:+ digits 2 (hour d) +:+ ":"
    +:+ digits 2 (minute d) +:+ ":" +:+ digits 2 (second d).

(** [d + timedelta(days=days)]: the day moves, the time of day stays; a
    result outside 0001-01-01 .. 9999-12-31 raises [OverflowError]. *)
Definition add_days (d : datetime) (days : Z) : exn + datetime :=
  let o := toordinal d + days in
  if (1 <=? o) && (o <=? MAXORDINAL)
  then inr (mk_datetime o (hour d) (minute d) (second d))
  else inl OverflowError.

End Calendar.

(** ** The worksheets *)

Inductive PaymentMode := Cash | UPI | Other.

(** A row of the [Active_Loans] sheet. *)
Module Loan.
Record t := mk {
  Loan_ID : string;
  Date : string;
  Party_Name : string;
  Mobile_Number : string;
  Total_Amount : Z;
  Daily_Amount : Z;
  Total_Days : Z;
  End_Date : string;
  Payment_Mode : PaymentMode;
  Collected_Amount : Z;
  Remaining_Amount : Z;
  Status : string
}.

(** [row["Collected_Amount"] += amount] *)
Definition add_collected (amount : Z) (r : t) : t :=
  mk (Loan_ID r) (Date r) (Party_Name r) (Mobile_Number r) (Total_Amount r)
     (Daily_Amount r) (Total_Days r) (End_Date r) (Payment_Mode r)
     (Collected_Amount r + amount) (Remaining_Amount r) (Status r).

(** [row["Remaining_Amount"] -= amount] *)
Definition sub_remaining (amount : Z) (r : t) : t :=
  mk (Loan_ID r) (Date r) (Party_Name r) (Mobile_Number r) (Total_Amount r)
     (Daily_Amount r) (Total_Days r) (End_Date r) (Payment_Mode r)
     (Collected_Amount r) (Remaining_Amount r - amount) (Status r).
End Loan.

(** A row of the [Completed_Loans] sheet: the columns of the loan as it left
    [Active_Loans], and [Completion_Date]. *)
Module Completed.
Record t := mk {
  loan : Loan.t;
  Completion_Date : string
}.
End Completed.

(** A row of the [Collections] sheet. *)
Module Collection.
Record t := mk {
  Collection_ID : string;
  Date : string;
  Loan_ID : string;
  Party_Name : string;
  Amount_Collected : Z;
  Days_Count : Z;
  Payment_Mode : PaymentMode
}.
End Collection.

Record Sheets := mk_sheets {
  Active_Loans : list Loan.t;
  Completed_Loans : list Completed.t;
  Collections : list Collection.t
}.

(** The spreadsheet and the wall clock: [clock w k] is what the [k]-th call
    of [datetime.now()] returns, [ticks w] counts the calls made so far. *)
Record World := mk_world {
  sheets : Sheets;
  clock : nat -> datetime;
  ticks : nat
}.

(** ** Computations that read and write the world and may raise *)

Definition M (A : Type) : Type := World -> (exn + A) * World.

Definition ret {A} (a : A) : M A := fun w => (inr a, w).

Definition raise {A} (e : exn) : M A := fun w => (inl e, w).

(** [m] runs first; if it raises, the rest is skipped and the world stays
    as [m] left it. *)
Definition bind {A B} (m : M A) (k : A -> M B) : M B :=
  fun w =>
    match m w with
    | (inr a, w') => k a w'
    | (inl e, w') => (inl e, w')
    end.

Declare Scope py_scope.
Delimit Scope py_scope with py.
Notation "x <- m ;; k" := (bind m (fun x => k))
  (at level 100, m at next level, right associativity) : py_scope.
Notation "m ;;; k" := (bind m (fun _ => k))
  (at level 100, right associativity) : py_scope.

(** Lifting a pure result that may be an exception. *)
Definition lift {A} (r : exn + A) : M A :=
  match r with
  | inr a => ret a
  | inl e => raise e
  end.

(** [datetime.now()] *)
Definition datetime_now : M datetime :=
  fun w => (inr (clock w (ticks w)),
            mk_world (sheets w) (clock w) (S (ticks w))).

(** The loaders return a fresh copy of the sheet's rows.  Their cache is
    cleared by every [save_all_data], so within a session they return what
    was last written. *)
Definition load_active_loans : M (list Loan.t) :=
  fun w => (inr (Active_Loans (sheets w)), w).

Definition load_completed_loans : M (list Completed.t) :=
  fun w => (inr (Completed_Loans (sheets w)), w).

Definition load_collections : M (list Collection.t) :=
  fun w => (inr (Collections (sheets w)), w).

(** [save_all_data]: the three sheets are replaced by the three frames. *)
Definition save_all_data (active_df : list Loan.t)
    (completed_df : list Completed.t) (collections_df : list Collection.t)
    : M unit :=
  fun w => (inr tt,
            mk_world (mk_sheets active_df completed_df collections_df)
                     (clock w) (ticks w)).

(** ** Frame operations used by the business logic *)

(** [active[active["Loan_ID"] == loan_id].index[0]].  A sheet without data
    rows is read as a frame without columns, where selecting the column
    raises [KeyError]; with rows but no match, [.index[0]] raises
    [IndexError]. *)
Definition first_index (loan_id : string) (active : list Loan.t) : exn + nat :=
  match active with
  | [] => inl KeyError
  | _ =>
    match list_find (fun r => Loan.Loan_ID r = loan_id) active with
    | Some (idx, _) => inr idx
    | None => inl IndexError
    end
  end.

(** [active.loc[idx]]; a label that is not in the index raises [KeyError]. *)
Definition loc (active : list Loan.t) (idx : nat) : exn + Loan.t :=
  match active !! idx with
  | Some r => inr r
  | None => inl KeyError
  end.

(** ** Business logic *)

Open Scope py_scope.

Definition add_loan (party mobile : string) (total daily days : Z)
    (mode : PaymentMode) : M string :=
  active <- load_active_loans ;;
  completed <- load_completed_loans ;;
  collections <- load_collections ;;
  let loan_id := loan_id_of (length active + length completed + 1) in
  now <- datetime_now ;;
  end_ <- lift (Calendar.add_days now days) ;;
  let new :=
    Loan.mk loan_id (Calendar.strftime_datetime now) party mobile total daily
            days (Calendar.strftime_date end_) mode 0 total "Active" in
  let active := active ++ [new] in
  save_all_data active completed collections ;;;
  ret loan_id.

Definition add_collection (loan_id : string) (amount days_count : Z)
    (payment_mode : PaymentMode) : M unit :=
  active <- load_active_loans ;;
  completed <- load_completed_loans ;;
  collections <- load_collections ;;
  idx <- lift (first_index loan_id active) ;;
  row <- lift (loc active idx) ;;
  let party := Loan.Party_Name row in
  let active := alter (Loan.add_collected amount) idx active in
  let active := alter (Loan.sub_remaining amount) idx active in
  row <- lift (loc active idx) ;;
  moved <-
    (if bool_decide (Loan.Remaining_Amount row <= 0) then
       completed_loan <- lift (loc active idx) ;;
       now <- datetime_now ;;
       let completed_loan :=
         Completed.mk completed_loan (Calendar.strftime_datetime now) in
       ret (delete idx active, completed ++ [completed_loan])
     else ret (active, completed)) ;;
  let active := moved.1 in
  let completed := moved.2 in
  let cid := collection_id_of (length collections + 1) in
  now <- datetime_now ;;
  let newc :=
    Collection.mk cid (Calendar.strftime_datetime now) loan_id party amount
                  days_count payment_mode in
  let collections := collections ++ [newc] in
  save_all_data active completed collections.

Close Scope py_scope.

(** ** The ledger as a state machine *)

Inductive op :=
| AddLoan (party mobile : string) (total daily days : Z) (mode : PaymentMode)
| AddCollection (loan_id : string) (amount days_count : Z)
                (payment_mode : PaymentMode).

(** The world an operation leaves behind, whether it returns or raises. *)
Definition exec (o : op) (w : World) : World :=
  match o with
  | AddLoan party mobile total daily days mode =>
      (add_loan party mobile total daily days mode w).2
  | AddCollection loan_id amount days_count payment_mode =>
      (add_collection loan_id amount days_count payment_mode w).2
  end.

Definition empty_ledger : Sheets := mk_sheets [] [] [].

(** The worlds that the two operations produce from an empty spreadsheet. *)
Inductive reachable : World -> Prop :=
| reachable_empty clk t : reachable (mk_world empty_ledger clk t)
| reachable_exec o w : reachable w -> reachable (exec o w).

Definition loan_ids (s : Sheets) : list string :=
  (Loan.Loan_ID <$> Active_Loans s)
    ++ (Loan.Loan_ID <$> (Completed.loan <$> Completed_Loans s)).

Definition loan_count (s : Sheets) : nat :=
  length (Active_Loans s) + length (Completed_Loans s).

(** The loans created along a run, in order of creation: for each, the
    combined number of loans on the two sheets when [add_loan] was called and
    the identifier it returned. *)
Fixpoint created (ops : list op) (w : World) : list (nat * string) :=
  match ops with
  | [] => []
  | o :: ops' =>
      match o with
      | AddLoan party mobile total daily days mode =>
          match (add_loan party mobile total daily days mode w).1 with
          | inr loan_id => [(loan_count (sheets w), loan_id)]
          | inl _ => []
          end
      | AddCollection _ _ _ _ => []
      end ++ created ops' (exec o w)
  end.

(** What one collection does to the loan's row. *)
Definition collect (amount : Z) (r : Loan.t) : Loan.t :=
  Loan.sub_remaining amount (Loan.add_collected amount r).


Definition all_loans (s : Sheets) : list Loan.t :=
  Active_Loans s ++ (Completed.loan <$> Completed_Loans s).

(** The checks of the "Give Money" form before it calls [add_loan], on
    ASCII text: [party.strip()] is not empty, [mobile.isdigit()] and
    [len(mobile) == 10], [total > 0] and [daily > 0]; the days widget has
    [min_value=1]. *)
Definition is_space (c : ascii) : bool :=
  let n := nat_of_ascii c in
  (n =? 32)%nat || ((9 <=? n)%nat && (n <=? 13)%nat)
  || ((28 <=? n)%nat && (n <=? 31)%nat).

Definition is_digit (c : ascii) : bool :=
  let n := nat_of_ascii c in (48 <=? n)%nat && (n <=? 57)%nat.

Definition valid_creation_input (party mobile : string)
    (total daily days : Z) : bool :=
  existsb (fun c => negb (is_space c)) (list_ascii_of_string party)
  && forallb is_digit (list_ascii_of_string mobile)
  && (String.length mobile =? 10)%nat
  && (0 <? total) && (0 <? daily) && (1 <=? days).

(** The identifiers on the two sheets are those of the first
    [loan_count] numbers, in some order. *)
Definition ids_sequential (s : Sheets) : Prop :=
  loan_ids s ≡ₚ loan_id_of <$> seq 1 (loan_count s).




(** A run of collections against one loan, each given by its amount, days
    count and payment mode, and the sum of their amounts. *)
Definition collect_all (loan_id : string)
    (payments : list (Z * Z * PaymentMode)) (w : World) : World :=
  foldl (fun w p => exec (AddCollection loan_id p.1.1 p.1.2 p.2) w) w payments.

Definition total_paid (payments : list (Z * Z * PaymentMode)) : Z :=
  foldr (fun p acc => p.1.1 + acc) 0 payments.

(** ** Worlds used in the scenarios *)

(** A clock that starts on 2024-01-25 at 10:30:00 and advances by a second
    at every reading. *)
Definition wall_clock (k : nat) : datetime :=
  mk_datetime (Calendar.ymd2ord 2024 1 25) 10 30 (Z.of_nat k).

Definition fresh_world : World := mk_world empty_ledger wall_clock 0.

Definition one_loan : World :=
  exec (AddLoan "Asha" "9876543210" 1000 100 10 Cash) fresh_world.

Definition part_paid : World :=
  exec (AddCollection "L0001" 400 4 UPI) one_loan.

Definition paid_off : World :=
  exec (AddCollection "L0001" 600 6 Cash) part_paid.

(** ** Runs of operations *)

Definition run (ops : list op) (w : World) : World :=
  foldl (fun w o => exec o w) w ops.

(** The columns of a loan that [add_collection] does not assign. *)
Definition static (r : Loan.t)
    : string * string * string * string * Z * Z * Z * string * PaymentMode
      * string :=
  (Loan.Loan_ID r, Loan.Date r, Loan.Party_Name r, Loan.Mobile_Number r,
   Loan.Total_Amount r, Loan.Daily_Amount r, Loan.Total_Days r,
   Loan.End_Date r, Loan.Payment_Mode r, Loan.Status r).

(** [df[column].sum()] *)
Definition sum_with {A} (f : A -> Z) (l : list A) : Z :=
  foldr (fun x acc => f x + acc) 0 l.

(** ** The pages of [main] *)

(** What a page shows after a button is pressed. *)
Inductive message :=
| st_error (text : string)
| st_success (text : string)
| st_info (text : string).

Definition strip_is_empty (s : string) : bool :=
  forallb is_space (list_ascii_of_string s).

(** [str.isdigit], on ASCII text: false on the empty string. *)
Definition isdigit (s : string) : bool :=
  match s with
  | EmptyString => false
  | _ => forallb is_digit (list_ascii_of_string s)
  end.

(** The button of the "Give Money" page. *)
Definition give_money (party mobile : string) (total daily days : Z)
    (mode : PaymentMode) : M message :=
  if strip_is_empty party then ret (st_error "Customer name required")
  else if negb (isdigit mobile) || negb (String.length mobile =? 10)%nat
  then ret (st_error "Enter valid 10-digit mobile number")
  else if (total <=? 0) || (daily <=? 0)
  then ret (st_error "Amounts must be greater than 0")
  else bind (add_loan party mobile total daily days mode)
            (fun loan_id => ret (st_success ("Loan created: " +:+ loan_id))).

(** [s.split(sep)[-1]]: what follows the last [sep], all of [s] without
    one. *)
Fixpoint after_last (sep : ascii) (s : string) : option string :=
  match s with
  | EmptyString => None
  | String a s' =>
      match after_last sep s' with
      | Some rest => Some rest
      | None => if Ascii.eqb a sep then Some s' else None
      end
  end.

Definition last_field (sep : ascii) (s : string) : string :=
  default s (after_last sep s).

(** [s.replace(c, "")] for a one-character [c]. *)
Fixpoint remove_char (c : ascii) (s : string) : string :=
  match s with
  | EmptyString => EmptyString
  | String a s' =>
      if Ascii.eqb a c then remove_char c s' else String a (remove_char c s')
  end.

(** The entry of a loan in the "Select Customer" box,
    [f"{r['Party_Name']} ({r['Loan_ID']})"], and the identifier read back
    from the entry chosen, [choice.split("(")[-1].replace(")", "")]. *)
Definition option_label (r : Loan.t) : string :=
  Loan.Party_Name r +:+ " (" +:+ Loan.Loan_ID r +:+ ")".

Definition chosen_loan_id (choice : string) : string :=
  remove_char ")" (last_field "(" choice).

(** [df.iloc[0]] *)
Definition iloc0 (rows : list Loan.t) : exn + Loan.t :=
  match rows with
  | r :: _ => inr r
  | [] => inl IndexError
  end.

(** The "Collect Money" page with its button pressed: [choice] is the entry
    selected, [amt], [days] and [mode] the values of the other widgets. *)
Definition collect_money (choice : string) (amt days : Z)
    (mode : PaymentMode) : M message :=
  bind load_active_loans (fun active =>
  match active with
  | [] => ret (st_info "No active loans")
  | _ =>
      let loan_id := chosen_loan_id choice in
      bind (lift (iloc0 (filter (fun r => Loan.Loan_ID r = loan_id) active)))
           (fun loan =>
      if amt <=? 0 then ret (st_error "Amount must be > 0")
      else if Loan.Remaining_Amount loan <? amt
      then ret (st_error "Cannot exceed remaining amount")
      else bind (add_collection loan_id amt days mode)
                (fun _ => ret (st_success "Payment collected")))
  end).

(** The "Dashboard" page: total given, total collected and remaining. *)
Definition dashboard : M (Z * Z * Z) :=
  bind load_active_loans (fun active =>
  bind load_collections (fun collections =>
  let total_given :=
    match active with
    | [] => 0
    | _ => sum_with Loan.Total_Amount active
    end in
  let total_collected :=
    match collections with
    | [] => 0
    | _ => sum_with Collection.Amount_Collected collections
    end in
  let remaining :=
    match active with
    | [] => 0
    | _ => sum_with Loan.Remaining_Amount active
    end in
  ret (total_given, total_collected, remaining))).

(** The ledger as the operator drives it, through the two forms. *)
Inductive form_op :=
| GiveMoney (party mobile : string) (total daily days : Z) (mode : PaymentMode)
| CollectMoney (choice : string) (amt days : Z) (mode : PaymentMode).

Definition submit (o : form_op) (w : World) : World :=
  match o with
  | GiveMoney party mobile total daily days mode =>
      (give_money party mobile total daily days mode w).2
  | CollectMoney choice amt days mode =>
      (collect_money choice amt days mode w).2
  end.


(** ** The "Collection History" page *)

Section History.
(** The day of a record, [pd.to_datetime(df["Date"]).dt.date], as a day
    number. *)
Variable date_of : string -> Z.

(** The records whose day lies between [start] and [end_], both included,
    and the total of their amounts; [None] is the "No data" notice of an
    empty sheet. *)
Definition collection_history (start end_ : Z)
    : M (option (Z * list Collection.t)) :=
  bind load_collections (fun df =>
  match df with
  | [] => ret None
  | _ =>
      let filtered :=
        filter (fun c => start <= date_of (Collection.Date c) <= end_) df in
      ret (Some (sum_with Collection.Amount_Collected filtered, filtered))
  end).

(** The range the date widget starts with: the earliest and the latest day
    on the sheet. *)
Definition first_day (df : list Collection.t) : Z :=
  match df with
  | [] => 0
  | c :: df' =>
      foldr (fun c acc => Z.min (date_of (Collection.Date c)) acc)
            (date_of (Collection.Date c)) df'
  end.

Definition last_day (df : list Collection.t) : Z :=
  match df with
  | [] => 0
  | c :: df' =>
      foldr (fun c acc => Z.max (date_of (Collection.Date c)) acc)
            (date_of (Collection.Date c)) df'
  end.
End History.

(** ** Authentication *)

(** A row of the [Users] sheet. *)
Module User.
Record t := mk {
  username : string;
  password_hash : string;
  name : string
}.

(** [row["password_hash"] = h] *)
Definition set_password_hash (h : string) (u : t) : t :=
  mk (username u) h (name u).
End User.

(** [df[df["username"] == username].index]: the labels of the matching
    rows. *)
Definition matching_index (username : string) (users : list User.t)
    : list nat :=
  (filter (fun p => User.username p.2 = username)
          (imap (fun i u => (i, u)) users)).*1.

Section Auth.
(** [hash_password]: the hexadecimal SHA-256 digest of the password. *)
Variable hash_password : string -> string.

(** [verify_login] on the rows of the [Users] sheet.  A sheet without rows
    has no [username] column. *)
Definition verify_login (users : list User.t) (username password : string)
    : exn + (bool * option string) :=
  match users with
  | [] => inl KeyError
  | _ =>
      match filter (fun u => User.username u = username) users with
      | user :: _ =>
          if decide (User.password_hash user = hash_password password)
          then inr (true, Some (User.name user))
          else inr (false, None)
      | [] => inr (false, None)
      end
  end.

(** [change_password]: the result and the rows of the [Users] sheet after
    the call. *)
Definition change_password (users : list User.t)
    (username old_password new_password : string)
    : exn + (bool * list User.t) :=
  match users with
  | [] => inl KeyError
  | _ =>
      match matching_index username users with
      | [idx] =>
          match users !! idx with
          | Some user =>
              if decide (User.password_hash user = hash_password old_password)
              then inr (true,
                        alter (User.set_password_hash
                                 (hash_password new_password)) idx users)
              else inr (false, users)
          | None => inl KeyError
          end
      | _ => inr (false, users)
      end
  end.
End Auth.

(** ** The cache in front of the loaders

    The app as a process: the sheets and the cache that
    [st.cache_data(ttl=60)] keeps for the three loaders. *)

Module App.

(** A slot of [st.cache_data(ttl=60)]: the value stored and when. *)
Record Cache := mk_cache {
  active_slot : option (list Loan.t * Z);
  completed_slot : option (list Completed.t * Z);
  collections_slot : option (list Collection.t * Z)
}.

Record t := mk {
  store : Sheets;
  cache : Cache
}.

Definition ttl : Z := 60.

(** A cached call at time [now]: the stored value while it is younger than
    [ttl], else the value read and stored anew. *)
Definition cached {A} (slot : option (A * Z)) (read : A) (now : Z)
    : A * option (A * Z) :=
  match slot with
  | Some (v, at_) =>
      if now <? at_ + ttl then (v, slot) else (read, Some (read, now))
  | None => (read, Some (read, now))
  end.

Definition load_active_loans (now : Z) (s : t) : list Loan.t * t :=
  let '(v, slot) :=
    cached (active_slot (cache s)) (Active_Loans (store s)) now in
  (v, mk (store s)
         (mk_cache slot (completed_slot (cache s))
                   (collections_slot (cache s)))).

Definition load_completed_loans (now : Z) (s : t) : list Completed.t * t :=
  let '(v, slot) :=
    cached (completed_slot (cache s)) (Completed_Loans (store s)) now in
  (v, mk (store s)
         (mk_cache (active_slot (cache s)) slot (collections_slot (cache s)))).

Definition load_collections (now : Z) (s : t) : list Collection.t * t :=
  let '(v, slot) :=
    cached (collections_slot (cache s)) (Collections (store s)) now in
  (v, mk (store s)
         (mk_cache (active_slot (cache s)) (completed_slot (cache s)) slot)).

Definition clear_cache (s : t) : t := mk (store s) (mk_cache None None None).

Definition save_all_data (active_df : list Loan.t)
    (completed_df : list Completed.t) (collections_df : list Collection.t)
    (s : t) : t :=
  clear_cache (mk (mk_sheets active_df completed_df collections_df) (cache s)).

(** The sheets replaced from outside the app, by hand or by another
    server: the cache is not told. *)
Definition written_elsewhere (sheets' : Sheets) (s : t) : t :=
  mk sheets' (cache s).

(** No slot holds rows other than those on its sheet. *)
Definition coherent (s : t) : Prop :=
  (forall v at_, active_slot (cache s) = Some (v, at_) ->
                 v = Active_Loans (store s))
  /\ (forall v at_, completed_slot (cache s) = Some (v, at_) ->
                    v = Completed_Loans (store s))
  /\ (forall v at_, collections_slot (cache s) = Some (v, at_) ->
                    v = Collections (store s)).

End App.

(** The loan a collection names is on a sheet, with the party name as
    logged. *)
Definition names_loan (s : Sheets) (c : Collection.t) : Prop :=
  exists l, l ∈ all_loans s
            /\ Loan.Loan_ID l = Collection.Loan_ID c
            /\ Loan.Party_Name l = Collection.Party_Name c.

(** Whether a character occurs in a text. *)
Fixpoint occurs (c : ascii) (s : string) : bool :=
  match s with
  | EmptyString => false
  | String a s' => Ascii.eqb a c || occurs c s'
  end.

(** What the "Give Money" form accepts, read on a stored row. *)
Definition well_formed (r : Loan.t) : Prop :=
  strip_is_empty (Loan.Party_Name r) = false
  /\ isdigit (Loan.Mobile_Number r) = true
  /\ String.length (Loan.Mobile_Number r) = 10%nat
  /\ 0 < Loan.Total_Amount r
  /\ 0 < Loan.Daily_Amount r.




(** ** Worlds driven through the forms *)

Definition form_one_loan : World :=
  submit (GiveMoney "Asha" "9876543210" 1000 100 10 Cash) fresh_world.

Definition form_part_paid : World :=
  submit (CollectMoney "Asha (L0001)" 400 4 UPI) form_one_loan.

Definition form_paid_off : World :=
  submit (CollectMoney "Asha (L0001)" 600 6 Cash) form_part_paid.

(** The day of a timestamp as [strftime] writes it, year first: what
    [pd.to_datetime] reads back from the [Date] column. *)
Definition number_at (start len : nat) (s : string) : Z :=
  match Fmt.parse (String.substring start len s) with
  | Some n => Z.of_nat n
  | None => 0
  end.

Definition day_of_text (s : string) : Z :=
  Calendar.ymd2ord (number_at 0 4 s) (number_at 5 2 s) (number_at 8 2 s).

(** A [Users] sheet with one operator, and a stand-in for the digest. *)
Definition toy_hash (password : string) : string := "#" +:+ password.

Definition one_user : list User.t :=
  [User.mk "admin" (toy_hash "secret1") "Administrator";
   User.mk "clerk" (toy_hash "secret2") "Clerk"].

(** * Properties *)

(** ** Formatting and the calendar *)

Example ymd2ord_2024_01_25 : Calendar.ymd2ord 2024 1 25 = 738910.
Proof. reflexivity. Qed.

Example ymd2ord_max : Calendar.ymd2ord 9999 12 31 = Calendar.MAXORDINAL.
Proof. reflexivity. Qed.

Example strftime_example :
  Calendar.strftime_datetime (mk_datetime 738910 9 5 0)
  = "2024-01-25 09:05:00"%string.
Proof. vm_compute. reflexivity. Qed.

Example strftime_year_ends :
  Calendar.strftime_date (mk_datetime (Calendar.ymd2ord 2024 2 29) 0 0 0)
  = "2024-02-29"%string
  /\ Calendar.strftime_date (mk_datetime (Calendar.ymd2ord 2023 12 31) 0 0 0)
     = "2023-12-31"%string
  /\ Calendar.strftime_date (mk_datetime (Calendar.ymd2ord 2000 12 31) 0 0 0)
     = "2000-12-31"%string
  /\ Calendar.strftime_date (mk_datetime 1 0 0 0) = "0001-01-01"%string
  /\ Calendar.strftime_date (mk_datetime Calendar.MAXORDINAL 0 0 0)
     = "9999-12-31"%string.
Proof. vm_compute. repeat split. Qed.

Example add_days_examples :
  Calendar.add_days (mk_datetime (Calendar.ymd2ord 2024 1 25) 10 30 0) 10
  = inr (mk_datetime (Calendar.ymd2ord 2024 2 4) 10 30 0)
  /\ Calendar.add_days (mk_datetime (Calendar.ymd2ord 2024 1 25) 10 30 0)
       4000000
     = inl OverflowError.
Proof. vm_compute. split; reflexivity. Qed.

Example loan_id_examples :
  loan_id_of 1 = "L0001"%string
  /\ loan_id_of 42 = "L0042"%string
  /\ loan_id_of (Z.to_nat 12345) = "L12345"%string
  /\ collection_id_of 1 = "C00001"%string.
Proof. vm_compute. repeat split. Qed.

(** ** Identifiers *)

Lemma parse_zeros k s : Fmt.parse (Fmt.zeros k +:+ s) = Fmt.parse s.
Proof.
  induction k as [|k IH]; [done|].
  unfold Fmt.parse in *. simpl.
  destruct (NilEmpty.uint_of_string (Fmt.zeros k +:+ s)) as [d|] eqn:E;
    destruct (NilEmpty.uint_of_string s) as [d'|]; simpl in *;
    simplify_eq; try done.
  f_equal. rewrite <- IH. reflexivity.
Qed.

Lemma parse_str n : Fmt.parse (Fmt.str n) = Some n.
Proof.
  unfold Fmt.parse, Fmt.str. rewrite NilEmpty.usu. simpl.
  by rewrite DecimalNat.Unsigned.of_to.
Qed.

Lemma parse_zfill w n : Fmt.parse (Fmt.zfill w n) = Some n.
Proof. unfold Fmt.zfill. by rewrite parse_zeros, parse_str. Qed.

Lemma zfill_inj w n m : Fmt.zfill w n = Fmt.zfill w m -> n = m.
Proof.
  intros H. apply (f_equal Fmt.parse) in H.
  rewrite !parse_zfill in H. by simplify_eq.
Qed.

#[global] Instance loan_id_of_inj : Inj (=) (=) loan_id_of.
Proof. intros n m H. injection H as H. by apply (zfill_inj 4). Qed.

#[global] Instance collection_id_of_inj : Inj (=) (=) collection_id_of.
Proof. intros n m H. injection H as H. by apply (zfill_inj 5). Qed.

(** ** What the two operations compute *)

Section Frames.
Context {A : Type}.
Implicit Types (l : list A) (i : nat) (x : A).

Lemma alter_found (f : A -> A) l i x :
  l !! i = Some x -> alter f i l = <[i := f x]> l.
Proof.
  intros H. rewrite list_insert_alter.
  apply list_alter_ext; [|done]. intros y Hy. congruence.
Qed.

Lemma delete_insert_same l i x : delete i (<[i := x]> l) = delete i l.
Proof. revert i. induction l; intros [|i]; simpl; f_equal; auto. Qed.

Lemma lookup_insert_found l i x y :
  l !! i = Some y -> <[i := x]> l !! i = Some x.
Proof. intros H. apply list_lookup_insert_eq. by eapply lookup_lt_Some. Qed.
End Frames.

Lemma first_index_found loan_id active i r :
  list_find (fun r => Loan.Loan_ID r = loan_id) active = Some (i, r) ->
  first_index loan_id active = inr i /\ loc active i = inr r.
Proof.
  intros H. unfold first_index, loc. rewrite H.
  apply list_find_Some in H as (Hi & _ & _). rewrite Hi.
  by destruct active.
Qed.

Lemma first_index_missing loan_id active :
  list_find (fun r => Loan.Loan_ID r = loan_id) active = None ->
  exists e, first_index loan_id active = inl e /\ LookupError e = true.
Proof.
  intros H. unfold first_index. rewrite H.
  destruct active; [by exists KeyError | by exists IndexError].
Qed.

Lemma add_loan_returns party mobile total daily days mode w :
  let now := clock w (ticks w) in
  1 <= toordinal now + days <= Calendar.MAXORDINAL ->
  add_loan party mobile total daily days mode w =
    (inr (loan_id_of (loan_count (sheets w) + 1)),
     mk_world
       (mk_sheets
          (Active_Loans (sheets w)
             ++ [Loan.mk (loan_id_of (loan_count (sheets w) + 1))
                         (Calendar.strftime_datetime now) party mobile total
                         daily days
                         (Calendar.strftime_date
                            (mk_datetime (toordinal now + days) (hour now)
                                         (minute now) (second now)))
                         mode 0 total "Active"])
          (Completed_Loans (sheets w)) (Collections (sheets w)))
       (clock w) (S (ticks w))).
Proof.
  intros now Hrange.
  unfold add_loan, bind, load_active_loans, load_completed_loans,
    load_collections, datetime_now, lift, save_all_data, ret, Calendar.add_days.
  simpl. fold now.
  assert ((1 <=? toordinal now + days)
          && (toordinal now + days <=? Calendar.MAXORDINAL) = true) as ->.
  { apply andb_true_intro. split; apply Z.leb_le; lia. }
  reflexivity.
Qed.

Lemma add_loan_raises party mobile total daily days mode w :
  let now := clock w (ticks w) in
  ~ (1 <= toordinal now + days <= Calendar.MAXORDINAL) ->
  add_loan party mobile total daily days mode w =
    (inl OverflowError, mk_world (sheets w) (clock w) (S (ticks w))).
Proof.
  intros now Hrange.
  unfold add_loan, bind, load_active_loans, load_completed_loans,
    load_collections, datetime_now, lift, save_all_data, ret, raise,
    Calendar.add_days.
  simpl. fold now.
  assert ((1 <=? toordinal now + days)
          && (toordinal now + days <=? Calendar.MAXORDINAL) = false) as ->.
  { apply andb_false_iff.
    destruct (Z.leb_spec 1 (toordinal now + days));
      destruct (Z.leb_spec (toordinal now + days) Calendar.MAXORDINAL);
      auto; lia. }
  reflexivity.
Qed.

Lemma add_collection_partial loan_id amount days_count payment_mode w i r :
  list_find (fun r => Loan.Loan_ID r = loan_id) (Active_Loans (sheets w))
    = Some (i, r) ->
  0 < Loan.Remaining_Amount r - amount ->
  add_collection loan_id amount days_count payment_mode w =
    (inr tt,
     mk_world
       (mk_sheets
          (<[i := collect amount r]> (Active_Loans (sheets w)))
          (Completed_Loans (sheets w))
          (Collections (sheets w)
             ++ [Collection.mk
                   (collection_id_of (length (Collections (sheets w)) + 1))
                   (Calendar.strftime_datetime (clock w (ticks w)))
                   loan_id (Loan.Party_Name r) amount days_count
                   payment_mode]))
       (clock w) (S (ticks w))).
Proof.
  intros Hfind Hrem.
  destruct (first_index_found _ _ _ _ Hfind) as [Hidx Hloc].
  assert (Active_Loans (sheets w) !! i = Some r) as Hi.
  { by apply list_find_Some in Hfind as (? & _ & _). }
  unfold add_collection, bind, load_active_loans, load_completed_loans,
    load_collections, datetime_now, save_all_data, ret.
  simpl. rewrite Hidx. simpl. rewrite Hloc. simpl.
  rewrite list_alter_alter_eq, (alter_found _ _ _ _ Hi).
  unfold loc. rewrite (lookup_insert_found _ _ _ _ Hi). simpl.
  rewrite bool_decide_eq_false_2 by (simpl; lia).
  reflexivity.
Qed.

Lemma add_collection_completing loan_id amount days_count payment_mode w i r :
  list_find (fun r => Loan.Loan_ID r = loan_id) (Active_Loans (sheets w))
    = Some (i, r) ->
  Loan.Remaining_Amount r - amount <= 0 ->
  add_collection loan_id amount days_count payment_mode w =
    (inr tt,
     mk_world
       (mk_sheets
          (delete i (Active_Loans (sheets w)))
          (Completed_Loans (sheets w)
             ++ [Completed.mk (collect amount r)
                   (Calendar.strftime_datetime (clock w (ticks w)))])
          (Collections (sheets w)
             ++ [Collection.mk
                   (collection_id_of (length (Collections (sheets w)) + 1))
                   (Calendar.strftime_datetime (clock w (S (ticks w))))
                   loan_id (Loan.Party_Name r) amount days_count
                   payment_mode]))
       (clock w) (S (S (ticks w)))).
Proof.
  intros Hfind Hrem.
  destruct (first_index_found _ _ _ _ Hfind) as [Hidx Hloc].
  assert (Active_Loans (sheets w) !! i = Some r) as Hi.
  { by apply list_find_Some in Hfind as (? & _ & _). }
  unfold add_collection, bind, load_active_loans, load_completed_loans,
    load_collections, datetime_now, save_all_data, ret.
  simpl. rewrite Hidx. simpl. rewrite Hloc. simpl.
  rewrite list_alter_alter_eq, (alter_found _ _ _ _ Hi).
  unfold loc. rewrite (lookup_insert_found _ _ _ _ Hi). simpl.
  rewrite bool_decide_eq_true_2 by (simpl; lia).
  simpl. rewrite delete_insert_same. reflexivity.
Qed.

Lemma add_collection_missing loan_id amount days_count payment_mode w :
  list_find (fun r => Loan.Loan_ID r = loan_id) (Active_Loans (sheets w))
    = None ->
  exists e, LookupError e = true /\
    add_collection loan_id amount days_count payment_mode w = (inl e, w).
Proof.
  intros Hfind.
  destruct (first_index_missing _ _ Hfind) as (e & He & Hlookup).
  exists e. split; [done|].
  unfold add_collection, bind, load_active_loans, load_completed_loans,
    load_collections.
  simpl. rewrite He. reflexivity.
Qed.

(** ** Case analysis on one step *)

(** Splits the goal along the four ways an operation can go: a loan is
    created, the end date overflows, the collection leaves the loan active or
    completes it, or the loan is not found. *)
Ltac exec_cases o w :=
  let Hr := fresh "Hrange" in
  let Hfind := fresh "Hfind" in
  let Hrem := fresh "Hrem" in
  let i := fresh "i" in
  let r := fresh "r" in
  let e := fresh "e" in
  destruct o as [party mobile total daily days mode
                | loan_id amount days_count payment_mode];
  unfold exec;
  [ destruct (decide (1 <= toordinal (clock w (ticks w)) + days
                      <= Calendar.MAXORDINAL)) as [Hr|Hr];
    [ rewrite (add_loan_returns party mobile total daily days mode w Hr)
    | rewrite (add_loan_raises party mobile total daily days mode w Hr) ]
  | destruct (list_find (fun r => Loan.Loan_ID r = loan_id)
                        (Active_Loans (sheets w))) as [[i r]|] eqn:Hfind;
    [ destruct (decide (Loan.Remaining_Amount r - amount <= 0)) as [Hrem|Hrem];
      [ rewrite (add_collection_completing loan_id amount days_count
                   payment_mode w i r Hfind Hrem)
      | rewrite (add_collection_partial loan_id amount days_count
                   payment_mode w i r Hfind ltac:(lia)) ]
    | destruct (add_collection_missing loan_id amount days_count
                  payment_mode w Hfind) as (e & _ & ->) ] ];
  cbn [fst snd sheets Active_Loans Completed_Loans Collections].

Lemma find_lookup loan_id (active : list Loan.t) i r :
  list_find (fun r => Loan.Loan_ID r = loan_id) active = Some (i, r) ->
  active !! i = Some r /\ Loan.Loan_ID r = loan_id.
Proof. intros H. apply list_find_Some in H. tauto. Qed.

(** ** Properties of every row that the operations preserve *)

Section RowInvariant.
Variable P : Loan.t -> Prop.
Hypothesis P_new :
  forall loan_id date party mobile total daily days end_date mode,
    P (Loan.mk loan_id date party mobile total daily days end_date mode
               0 total "Active").
Hypothesis P_collect : forall amount r, P r -> P (collect amount r).

Lemma row_invariant_exec o w :
  Forall P (all_loans (sheets w)) -> Forall P (all_loans (sheets (exec o w))).
Proof.
  unfold all_loans. intros H.
  apply Forall_app in H as [Ha Hc].
  exec_cases o w.
  - apply Forall_app. split; [|done]. apply Forall_app. split; [done|].
    apply Forall_singleton, P_new.
  - by apply Forall_app.
  - apply find_lookup in Hfind as [Hi _]. apply Forall_app. split.
    + by apply Forall_delete.
    + rewrite fmap_app. apply Forall_app. split; [done|].
      apply Forall_singleton. simpl. apply P_collect.
      exact (Forall_lookup_1 _ _ _ _ Ha Hi).
  - apply find_lookup in Hfind as [Hi _]. apply Forall_app. split; [|done].
    apply Forall_insert; [done|]. apply P_collect.
    exact (Forall_lookup_1 _ _ _ _ Ha Hi).
  - by apply Forall_app.
Qed.

Lemma row_invariant_reachable w :
  reachable w -> Forall P (all_loans (sheets w)).
Proof.
  induction 1 as [clk t|o w _ IH].
  - constructor.
  - by apply row_invariant_exec.
Qed.
End RowInvariant.



Lemma reachable_status_active w :
  reachable w ->
  Forall (fun r => Loan.Status r = "Active"%string) (all_loans (sheets w)).
Proof. apply row_invariant_reachable; [done | by intros amount []]. Qed.

(** ** The identifiers held by the ledger *)

Lemma loan_count_exec o w :
  loan_count (sheets (exec o w)) =
    match o with
    | AddLoan party mobile total daily days mode =>
        match (add_loan party mobile total daily days mode w).1 with
        | inr _ => S (loan_count (sheets w))
        | inl _ => loan_count (sheets w)
        end
    | AddCollection _ _ _ _ => loan_count (sheets w)
    end.
Proof.
  unfold loan_count. exec_cases o w.
  - rewrite length_app. simpl. lia.
  - done.
  - apply find_lookup in Hfind as [Hi _].
    rewrite length_app, length_delete by eauto. simpl.
    apply lookup_lt_Some in Hi. lia.
  - by rewrite length_insert.
  - done.
Qed.

Lemma loan_ids_all_loans s : loan_ids s = Loan.Loan_ID <$> all_loans s.
Proof. unfold loan_ids, all_loans. by rewrite fmap_app. Qed.

(** A collection replaces the row [r] of the loan by [collect amount r], in
    whichever sheet the row ends up, and touches no other row. *)
Lemma all_loans_add_collection loan_id amount days_count payment_mode w i r :
  list_find (fun r => Loan.Loan_ID r = loan_id) (Active_Loans (sheets w))
    = Some (i, r) ->
  let others := delete i (Active_Loans (sheets w))
                  ++ (Completed.loan <$> Completed_Loans (sheets w)) in
  (all_loans (sheets w) ≡ₚ r :: others) /\
  (all_loans
     (sheets (exec (AddCollection loan_id amount days_count payment_mode) w))
     ≡ₚ collect amount r :: others).
Proof.
  intros Hfind others. pose proof (find_lookup _ _ _ _ Hfind) as [Hi _].
  unfold all_loans, others. split.
  - by rewrite (delete_Permutation _ _ _ Hi) at 1.
  - unfold exec.
    destruct (decide (Loan.Remaining_Amount r - amount <= 0)) as [Hrem|Hrem].
    + rewrite (add_collection_completing _ _ _ _ _ _ _ Hfind Hrem). simpl.
      rewrite fmap_app. simpl.
      by rewrite app_assoc, <- Permutation_cons_append.
    + assert (0 < Loan.Remaining_Amount r - amount) as Hpos by lia.
      rewrite (add_collection_partial _ _ _ _ _ _ _ Hfind Hpos). simpl.
      rewrite (delete_Permutation (<[i:=collect amount r]> _) i
                 (collect amount r)).
      * by rewrite delete_insert_same.
      * by eapply lookup_insert_found.
Qed.

Lemma loan_ids_exec o w :
  loan_ids (sheets (exec o w)) ≡ₚ
    match o with
    | AddLoan party mobile total daily days mode =>
        match (add_loan party mobile total daily days mode w).1 with
        | inr loan_id => loan_ids (sheets w) ++ [loan_id]
        | inl _ => loan_ids (sheets w)
        end
    | AddCollection _ _ _ _ => loan_ids (sheets w)
    end.
Proof.
  destruct o as [party mobile total daily days mode
                | loan_id amount days_count payment_mode].
  - unfold loan_ids, exec.
    destruct (decide (1 <= toordinal (clock w (ticks w)) + days
                      <= Calendar.MAXORDINAL)) as [Hr|Hr].
    + rewrite (add_loan_returns _ _ _ _ _ _ _ Hr). simpl.
      rewrite fmap_app, <- !app_assoc. simpl.
      apply Permutation_app_head, Permutation_cons_append.
    + by rewrite (add_loan_raises _ _ _ _ _ _ _ Hr).
  - destruct (list_find (fun r => Loan.Loan_ID r = loan_id)
                        (Active_Loans (sheets w))) as [[i r]|] eqn:Hfind.
    + destruct (all_loans_add_collection loan_id amount days_count
                  payment_mode w i r Hfind) as [Hbefore Hafter].
      rewrite !loan_ids_all_loans, Hbefore, Hafter. done.
    + unfold exec.
      by destruct (add_collection_missing loan_id amount days_count
                     payment_mode w Hfind) as (e & _ & ->).
Qed.

Lemma add_loan_result party mobile total daily days mode w loan_id :
  (add_loan party mobile total daily days mode w).1 = inr loan_id ->
  loan_id = loan_id_of (loan_count (sheets w) + 1).
Proof.
  destruct (decide (1 <= toordinal (clock w (ticks w)) + days
                    <= Calendar.MAXORDINAL)) as [Hr|Hr].
  - rewrite (add_loan_returns _ _ _ _ _ _ _ Hr). simpl. congruence.
  - by rewrite (add_loan_raises _ _ _ _ _ _ _ Hr).
Qed.

Lemma ids_sequential_exec o w :
  ids_sequential (sheets w) -> ids_sequential (sheets (exec o w)).
Proof.
  unfold ids_sequential. intros H.
  rewrite loan_ids_exec, loan_count_exec.
  destruct o as [party mobile total daily days mode|]; [|done].
  destruct (add_loan party mobile total daily days mode w).1
    as [e|loan_id] eqn:Hres; [done|].
  apply add_loan_result in Hres as ->.
  rewrite seq_S, fmap_app, H. simpl.
  by replace (S (loan_count (sheets w)))
       with (loan_count (sheets w) + 1)%nat by lia.
Qed.

Lemma reachable_ids_sequential w : reachable w -> ids_sequential (sheets w).
Proof.
  induction 1 as [clk t|o w _ IH].
  - unfold ids_sequential. simpl. constructor.
  - by apply ids_sequential_exec.
Qed.

Lemma ids_sequential_NoDup s : ids_sequential s -> NoDup (loan_ids s).
Proof.
  unfold ids_sequential. intros ->.
  apply NoDup_fmap; [apply _|]. apply NoDup_seq.
Qed.


(** ** The collection log accounts for every collected amount *)







(** ** Scenarios *)

Lemma reachable_one_loan : reachable one_loan.
Proof. repeat constructor. Qed.


Lemma reachable_paid_off : reachable paid_off.
Proof. repeat constructor. Qed.

Example scenario_create :
  add_loan "Asha" "9876543210" 1000 100 10 Cash fresh_world =
    (inr "L0001"%string,
     mk_world
       (mk_sheets
          [Loan.mk "L0001" "2024-01-25 10:30:00" "Asha" "9876543210" 1000 100
                   10 "2024-02-04" Cash 0 1000 "Active"]
          [] [])
       wall_clock 1).
Proof. vm_compute. reflexivity. Qed.

Example scenario_collect_400 :
  sheets part_paid =
    mk_sheets
      [Loan.mk "L0001" "2024-01-25 10:30:00" "Asha" "9876543210" 1000 100
               10 "2024-02-04" Cash 400 600 "Active"]
      []
      [Collection.mk "C00001" "2024-01-25 10:30:01" "L0001" "Asha" 400 4 UPI].
Proof. vm_compute. reflexivity. Qed.

Example scenario_collect_all :
  sheets (exec (AddCollection "L0001" 1000 10 Cash) one_loan) =
    mk_sheets
      []
      [Completed.mk
         (Loan.mk "L0001" "2024-01-25 10:30:00" "Asha" "9876543210" 1000 100
                  10 "2024-02-04" Cash 1000 0 "Active")
         "2024-01-25 10:30:01"]
      [Collection.mk "C00001" "2024-01-25 10:30:02" "L0001" "Asha" 1000 10
                     Cash].
Proof. vm_compute. reflexivity. Qed.

(** ** Collections against a loan *)

Lemma filter_unreferenced {A} (f : A -> string) (x : string) (l : list A) :
  x ∉ f <$> l -> filter (fun y => f y = x) l = [].
Proof.
  induction l as [|y l IH]; [done|].
  rewrite fmap_cons, not_elem_of_cons, filter_cons. intros [Hne Hnot].
  rewrite decide_False by congruence. by apply IH.
Qed.

Lemma reachable_NoDup w : reachable w -> NoDup (loan_ids (sheets w)).
Proof. intros H. by apply ids_sequential_NoDup, reachable_ids_sequential. Qed.

(** Where the identifier of an active row is, and is not, once the row has
    moved to the completed sheet. *)
Lemma completing_step loan_id w i r done :
  reachable w ->
  list_find (fun r => Loan.Loan_ID r = loan_id) (Active_Loans (sheets w))
    = Some (i, r) ->
  Loan.Loan_ID (Completed.loan done) = loan_id ->
  (loan_id ∉ Loan.Loan_ID <$> delete i (Active_Loans (sheets w)))
  /\ filter (fun c => Loan.Loan_ID (Completed.loan c) = loan_id)
            (Completed_Loans (sheets w) ++ [done]) = [done].
Proof.
  intros Hreach Hfind Hdone.
  apply find_lookup in Hfind as [Hi Hid].
  pose proof (reachable_NoDup _ Hreach) as Hnd.
  unfold loan_ids in Hnd. apply NoDup_app in Hnd as (Hnda & Hdisj & _).
  split.
  - rewrite (delete_Permutation _ _ _ Hi), fmap_cons in Hnda.
    apply NoDup_cons in Hnda as [Hnot _]. by rewrite <- Hid.
  - rewrite filter_app, filter_cons, filter_nil, decide_True by done.
    rewrite (filter_unreferenced (Loan.Loan_ID ∘ Completed.loan)); [done|].
    rewrite list_fmap_compose. apply Hdisj. rewrite <- Hid.
    apply list_elem_of_fmap_2. by eapply list_elem_of_lookup_2.
Qed.

(** The row of a loan stays the first one with its identifier when it is
    rewritten in place. *)
Lemma partial_step_find loan_id (active : list Loan.t) i r r' :
  list_find (fun r => Loan.Loan_ID r = loan_id) active = Some (i, r) ->
  Loan.Loan_ID r' = loan_id ->
  list_find (fun r => Loan.Loan_ID r = loan_id) (<[i := r']> active)
    = Some (i, r').
Proof.
  intros (Hi & Hid & Hfirst)%list_find_Some Hid'.
  apply list_find_Some. split_and!.
  - by eapply lookup_insert_found.
  - done.
  - intros j y Hj Hlt. apply (Hfirst j y); [|done].
    by rewrite list_lookup_insert_ne in Hj by lia.
Qed.



Lemma total_paid_positive payments :
  payments <> [] -> Forall (fun p => 0 < p.1.1) payments ->
  0 < total_paid payments.
Proof.
  intros Hne Hpos. destruct Hpos as [|[[a d] m] ps Hp Hps]; [done|].
  simpl in *.
  assert (0 <= total_paid ps); [|lia].
  clear Hne. induction Hps as [|[[b e] n] qs Hq _ IH]; simpl in *; lia.
Qed.

(** Any run of positive collections against an active loan whose amounts sum
    to what remains of it, hence to its total amount together with what was
    collected before, leaves it once on the completed sheet, with nothing
    remaining, and no longer on the active sheet. *)
Lemma collections_summing_to_remaining loan_id payments w i r :
  reachable w ->
  list_find (fun r => Loan.Loan_ID r = loan_id) (Active_Loans (sheets w))
    = Some (i, r) ->
  payments <> [] ->
  Forall (fun p => 0 < p.1.1) payments ->
  total_paid payments = Loan.Remaining_Amount r ->
  exists done,
    let w' := collect_all loan_id payments w in
    Completed_Loans (sheets w') = Completed_Loans (sheets w) ++ [done]
    /\ Active_Loans (sheets w') = delete i (Active_Loans (sheets w))
    /\ (loan_id ∉ Loan.Loan_ID <$> Active_Loans (sheets w'))
    /\ filter (fun c => Loan.Loan_ID (Completed.loan c) = loan_id)
              (Completed_Loans (sheets w')) = [done]
    /\ Loan.Remaining_Amount (Completed.loan done) = 0
    /\ Loan.Collected_Amount (Completed.loan done)
         = Loan.Collected_Amount r + Loan.Remaining_Amount r.
Proof.
  intros Hreach Hfind Hne Hpos. revert w r Hreach Hfind.
  induction Hpos as [|[[amount days_count] payment_mode] ps Hp Hps IH];
    [done|].
  intros w r Hreach Hfind Hsum. simpl in Hp, Hsum.
  pose proof (find_lookup _ _ _ _ Hfind) as [Hi Hid].
  destruct (decide (ps = [])) as [->|Hps_ne].
  - simpl in Hsum.
    assert (Loan.Remaining_Amount r - amount <= 0) as Hrem by lia.
    destruct (completing_step loan_id w i r
                (Completed.mk (collect amount r)
                   (Calendar.strftime_datetime (clock w (ticks w))))
                Hreach Hfind Hid) as [Hactive Hdone].
    eexists. unfold collect_all, exec. simpl.
    rewrite (add_collection_completing _ _ _ _ _ _ _ Hfind Hrem). simpl.
    split_and!;
      [reflexivity|reflexivity|exact Hactive|exact Hdone|simpl; lia..].
  - pose proof (total_paid_positive ps Hps_ne Hps) as Hrest.
    assert (0 < Loan.Remaining_Amount r - amount) as Hrem by lia.
    set (w1 := exec (AddCollection loan_id amount days_count payment_mode) w).
    assert (sheets w1 =
              mk_sheets (<[i := collect amount r]> (Active_Loans (sheets w)))
                (Completed_Loans (sheets w))
                (Collections (sheets w1))) as Hw1.
    { unfold w1, exec.
      by rewrite (add_collection_partial _ _ _ _ _ _ _ Hfind Hrem). }
    destruct (IH Hps_ne w1 (collect amount r)) as (done & Hrun).
    + by apply reachable_exec.
    + rewrite Hw1. simpl. by apply (partial_step_find _ _ _ r).
    + simpl. lia.
    + exists done. simpl in Hrun |- *. fold w1.
      rewrite Hw1 in Hrun at 1 2. simpl in Hrun.
      rewrite delete_insert_same in Hrun.
      destruct Hrun as (H1 & H2 & H3 & H4 & H5 & H6).
      split_and!; try done. lia.
Qed.

Example collections_summing_to_total :
  sheets (collect_all "L0001" [(300, 3, Cash); (300, 3, UPI); (400, 4, Other)]
            one_loan)
  = mk_sheets
      []
      [Completed.mk
         (Loan.mk "L0001" "2024-01-25 10:30:00" "Asha" "9876543210" 1000 100
                  10 "2024-02-04" Cash 1000 0 "Active")
         "2024-01-25 10:30:03"]
      [Collection.mk "C00001" "2024-01-25 10:30:01" "L0001" "Asha" 300 3 Cash;
       Collection.mk "C00002" "2024-01-25 10:30:02" "L0001" "Asha" 300 3 UPI;
       Collection.mk "C00003" "2024-01-25 10:30:04" "L0001" "Asha" 400 4
                     Other].
Proof. vm_compute. reflexivity. Qed.





(** C7: against an identifier that no row of the active sheet carries,
    whether unknown or already completed, the collection raises a lookup
    error and the world, with its three sheets, is exactly as before. *)
Theorem C7_collection_unknown_loan_fails
    loan_id amount days_count payment_mode w :
  loan_id ∉ Loan.Loan_ID <$> Active_Loans (sheets w) ->
  exists e,
    LookupError e = true
    /\ add_collection loan_id amount days_count payment_mode w = (inl e, w).
Proof.
  intros Hnot. apply add_collection_missing.
  apply list_find_None, Forall_forall. intros r Hr Hid.
  apply Hnot. rewrite <- Hid. by apply list_elem_of_fmap_2.
Qed.

Lemma C7_witness :
  (exists e, LookupError e = true
     /\ add_collection "L0007" 100 1 Cash one_loan = (inl e, one_loan))
  /\ (exists e, LookupError e = true
        /\ add_collection "L0001" 100 1 Cash paid_off = (inl e, paid_off)).
Proof.
  split.
  - apply (C7_collection_unknown_loan_fails "L0007" 100 1 Cash one_loan).
    vm_compute. intros H. apply list_elem_of_singleton in H. discriminate.
  - apply (C7_collection_unknown_loan_fails "L0001" 100 1 Cash paid_off).
    vm_compute. apply not_elem_of_nil.
Defined.




(** C10: the combined number of rows on the active and completed sheets is
    left unchanged by every collection, which at most moves a row from one
    sheet to the other, and grows by exactly one with every loan that
    [add_loan] creates; the identifiers held change accordingly. *)
Theorem C10_loan_count_invariant o w :
  let s := sheets w in
  let s' := sheets (exec o w) in
  match o with
  | AddCollection _ _ _ _ =>
      loan_count s' = loan_count s /\ loan_ids s' ≡ₚ loan_ids s
  | AddLoan party mobile total daily days mode =>
      match (add_loan party mobile total daily days mode w).1 with
      | inr loan_id =>
          loan_count s' = (loan_count s + 1)%nat
          /\ loan_ids s' ≡ₚ loan_ids s ++ [loan_id]
      | inl _ => loan_count s' = loan_count s /\ loan_ids s' ≡ₚ loan_ids s
      end
  end.
Proof.
  intros s s'. subst s s'.
  pose proof (loan_count_exec o w) as Hcount.
  pose proof (loan_ids_exec o w) as Hids.
  destruct o as [party mobile total daily days mode|]; [|done].
  destruct (add_loan party mobile total daily days mode w).1; [done|].
  split; [lia|done].
Qed.

(** ** Loan identifiers *)





Example first_loan_is_L0001 :
  created [AddLoan "Asha" "9876543210" 1000 100 10 Cash;
           AddCollection "L0001" 1000 10 Cash;
           AddLoan "Binod" "9123456780" 500 50 10 UPI] fresh_world
  = [(0%nat, "L0001"%string); (1%nat, "L0002"%string)].
Proof. vm_compute. reflexivity. Qed.

(** ** Amounts *)



(** ** Creating a loan *)

(** C4 fails for a term that carries the end date past 9999-12-31: the
    inputs pass every check of the form, [add_loan] raises [OverflowError]
    and no loan is added. *)
Lemma C4_counterexample_term_overflows :
  valid_creation_input "Asha" "9876543210" 1000 100 4000000 = true
  /\ add_loan "Asha" "9876543210" 1000 100 4000000 Cash fresh_world
     = (inl OverflowError, mk_world empty_ledger wall_clock 1)
  /\ ~ (exists loan_id w',
          add_loan "Asha" "9876543210" 1000 100 4000000 Cash fresh_world
          = (inr loan_id, w')).
Proof.
  split; [reflexivity|]. split; [reflexivity|].
  intros (loan_id & w' & H). discriminate H.
Qed.

(** C4, amended: whenever the creation date plus the term is a date up to
    9999-12-31, and so for every valid input with such a term, [add_loan]
    returns the new identifier and appends to the active sheet, leaving the
    other two sheets alone, a loan with the inputs as given, collected
    amount 0, remaining amount equal to the total amount, status Active and
    end date the creation date plus the term in days. *)
Theorem C4_add_loan_creates_active_loan party mobile total daily days mode w :
  1 <= toordinal (clock w (ticks w)) + days <= Calendar.MAXORDINAL ->
  exists w' new end_,
    add_loan party mobile total daily days mode w
      = (inr (Loan.Loan_ID new), w')
    /\ Active_Loans (sheets w') = Active_Loans (sheets w) ++ [new]
    /\ Completed_Loans (sheets w') = Completed_Loans (sheets w)
    /\ Collections (sheets w') = Collections (sheets w)
    /\ Loan.Loan_ID new = loan_id_of (loan_count (sheets w) + 1)
    /\ Loan.Party_Name new = party
    /\ Loan.Mobile_Number new = mobile
    /\ Loan.Total_Amount new = total
    /\ Loan.Daily_Amount new = daily
    /\ Loan.Total_Days new = days
    /\ Loan.Payment_Mode new = mode
    /\ Loan.Collected_Amount new = 0
    /\ Loan.Remaining_Amount new = total
    /\ Loan.Status new = "Active"%string
    /\ Loan.Date new = Calendar.strftime_datetime (clock w (ticks w))
    /\ Calendar.add_days (clock w (ticks w)) days = inr end_
    /\ toordinal end_ = toordinal (clock w (ticks w)) + days
    /\ Loan.End_Date new = Calendar.strftime_date end_.
Proof.
  intros Hrange. rewrite (add_loan_returns _ _ _ _ _ _ _ Hrange).
  set (now := clock w (ticks w)) in *.
  set (end_ := mk_datetime (toordinal now + days) (hour now) (minute now)
                           (second now)).
  eexists.
  exists (Loan.mk (loan_id_of (loan_count (sheets w) + 1))
                  (Calendar.strftime_datetime now) party mobile total daily
                  days (Calendar.strftime_date end_) mode 0 total "Active").
  exists end_. split; [reflexivity|]. simpl.
  split_and!; try reflexivity.
  unfold Calendar.add_days.
  assert ((1 <=? toordinal now + days)
          && (toordinal now + days <=? Calendar.MAXORDINAL)
          = true) as ->; [|reflexivity].
  apply andb_true_intro. split; apply Z.leb_le; lia.
Qed.

Lemma C4_witness :
  valid_creation_input "Asha" "9876543210" 1000 100 10 = true
  /\ exists w' new,
       add_loan "Asha" "9876543210" 1000 100 10 Cash fresh_world
         = (inr "L0001"%string, w')
       /\ Active_Loans (sheets w') = [new]
       /\ Loan.Remaining_Amount new = 1000
       /\ Loan.Collected_Amount new = 0
       /\ Loan.Status new = "Active"%string
       /\ Loan.End_Date new = "2024-02-04"%string.
Proof.
  split; [reflexivity|].
  destruct (C4_add_loan_creates_active_loan "Asha" "9876543210" 1000 100 10
              Cash fresh_world)
    as (w' & new & end_ & Hrun & Hactive & _ & _ & Hid & _ & _ & _ & _ & _
        & _ & Hcollected & Hremaining & Hstatus & _ & Hadd & _ & Hend).
  - vm_compute. split; discriminate.
  - exists w', new. rewrite Hid in Hrun.
    split; [exact Hrun|]. split; [exact Hactive|].
    split; [exact Hremaining|]. split; [exact Hcollected|].
    split; [exact Hstatus|].
    rewrite Hend. vm_compute in Hadd. injection Hadd as <-.
    vm_compute. reflexivity.
Defined.

(** ** The status column *)

(** C6 fails on the completed sheet: once a loan is created and repaid in
    full, its row on [Completed_Loans] still reads [Active], the value
    written by [add_loan]; nothing writes [Completed]. *)
Theorem C6_completed_row_keeps_status_Active :
  Active_Loans (sheets paid_off) = []
  /\ (Loan.Loan_ID <$> (Completed.loan <$> Completed_Loans (sheets paid_off)))
     = ["L0001"%string]
  /\ (Loan.Status <$> (Completed.loan <$> Completed_Loans (sheets paid_off)))
     = ["Active"%string]
  /\ "Active"%string <> "Completed"%string.
Proof. vm_compute. split_and!; try reflexivity. discriminate. Qed.

(** In every ledger the operations produce, each row of either sheet reads
    [Active]. *)
Lemma status_is_always_Active w r :
  reachable w -> r ∈ all_loans (sheets w) -> Loan.Status r = "Active"%string.
Proof.
  intros Hreach Hr.
  by apply (proj1 (Forall_forall _ _) (reachable_status_active _ Hreach)).
Qed.

(** * Further properties of the ledger *)

(** ** Runs *)

Lemma reachable_run ops w : reachable w -> reachable (run ops w).
Proof.
  revert w. induction ops as [|o ops IH]; intros w Hw; [done|].
  apply (IH (exec o w)). by constructor.
Qed.

Lemma run_snoc ops o w : run (ops ++ [o]) w = exec o (run ops w).
Proof. unfold run. by rewrite foldl_app. Qed.

(** The completed sheet and the collection log only grow at the end. *)
Lemma exec_appends o w :
  Completed_Loans (sheets w) `prefix_of` Completed_Loans (sheets (exec o w))
  /\ Collections (sheets w) `prefix_of` Collections (sheets (exec o w)).
Proof.
  exec_cases o w; split; try done; by apply prefix_app_r.
Qed.

(** Each row is still there after a step, on one sheet or the other, with
    the columns other than the two running amounts as they were. *)
Lemma exec_keeps_static o w l :
  l ∈ all_loans (sheets w) ->
  exists l', l' ∈ all_loans (sheets (exec o w)) /\ static l' = static l.
Proof.
  intros Hl.
  destruct o as [party mobile total daily days mode
                | loan_id amount days_count payment_mode].
  - exists l. split; [|done]. unfold exec, all_loans in *.
    destruct (decide (1 <= toordinal (clock w (ticks w)) + days
                      <= Calendar.MAXORDINAL)) as [Hr|Hr].
    + rewrite (add_loan_returns _ _ _ _ _ _ _ Hr). simpl.
      rewrite !elem_of_app in *. tauto.
    + by rewrite (add_loan_raises _ _ _ _ _ _ _ Hr).
  - destruct (list_find (fun r => Loan.Loan_ID r = loan_id)
                        (Active_Loans (sheets w))) as [[i r]|] eqn:Hfind.
    + destruct (all_loans_add_collection loan_id amount days_count
                  payment_mode w i r Hfind) as [Hbefore Hafter].
      rewrite Hbefore in Hl. apply elem_of_cons in Hl as [->|Hl].
      * exists (collect amount r). split; [|done].
        rewrite Hafter. apply elem_of_cons. by left.
      * exists l. split; [|done]. rewrite Hafter. apply elem_of_cons. by right.
    + exists l. split; [|done]. unfold exec.
      by destruct (add_collection_missing loan_id amount days_count
                     payment_mode w Hfind) as (e & _ & ->).
Qed.

Lemma run_only_grows ops w :
  Completed_Loans (sheets w) `prefix_of` Completed_Loans (sheets (run ops w))
  /\ Collections (sheets w) `prefix_of` Collections (sheets (run ops w))
  /\ (forall l, l ∈ all_loans (sheets w) ->
        exists l', l' ∈ all_loans (sheets (run ops w))
                   /\ static l' = static l).
Proof.
  induction ops as [|o ops IH] using rev_ind.
  - split_and!; [done|done|]. intros l Hl. by exists l.
  - rewrite run_snoc. destruct IH as (Hdone & Hlog & Hrows).
    destruct (exec_appends o (run ops w)) as [Hdone' Hlog'].
    split_and!.
    + by etrans.
    + by etrans.
    + intros l Hl. destruct (Hrows l Hl) as (l1 & Hl1 & Hs1).
      destruct (exec_keeps_static o (run ops w) l1 Hl1) as (l2 & Hl2 & Hs2).
      exists l2. split; [done|]. congruence.
Qed.


(** X5: a completed loan stays completed: after any further operations its
    identifier is on the completed sheet and not on the active one, so that
    a collection against it raises a lookup error and changes nothing. *)
Theorem completed_is_terminal loan_id amount days_count payment_mode ops w :
  reachable w ->
  loan_id ∈ Loan.Loan_ID <$> (Completed.loan <$> Completed_Loans (sheets w)) ->
  let w' := run ops w in
  (loan_id ∈ Loan.Loan_ID <$> (Completed.loan <$> Completed_Loans (sheets w')))
  /\ (loan_id ∉ Loan.Loan_ID <$> Active_Loans (sheets w'))
  /\ exists e,
       LookupError e = true
       /\ add_collection loan_id amount days_count payment_mode w' = (inl e, w').
Proof.
  intros Hreach Hdone w'.
  destruct (run_only_grows ops w) as ([rest Hgrow] & _).
  fold w' in Hgrow.
  assert (loan_id ∈ Loan.Loan_ID <$>
                     (Completed.loan <$> Completed_Loans (sheets w'))) as Hin.
  { rewrite Hgrow, !fmap_app. apply elem_of_app. by left. }
  assert (loan_id ∉ Loan.Loan_ID <$> Active_Loans (sheets w')) as Hnot.
  { pose proof (reachable_NoDup _ (reachable_run ops w Hreach)) as Hnd.
    fold w' in Hnd. unfold loan_ids in Hnd.
    apply NoDup_app in Hnd as (_ & Hdisj & _).
    intros Hactive. by apply (Hdisj _ Hactive). }
  split_and!; [done|done|].
  apply add_collection_missing, list_find_None, Forall_forall.
  intros r Hr Hid. apply Hnot. rewrite <- Hid. by apply list_elem_of_fmap_2.
Qed.

Lemma completed_is_terminal_witness :
  let w' := run [AddLoan "Binod" "9123456780" 500 50 10 UPI;
                 AddCollection "L0002" 200 4 UPI] paid_off in
  ("L0001"%string ∉ Loan.Loan_ID <$> Active_Loans (sheets w'))
  /\ exists e,
       LookupError e = true
       /\ add_collection "L0001" 100 1 Cash w' = (inl e, w').
Proof.
  intros w'.
  destruct (completed_is_terminal "L0001" 100 1 Cash
              [AddLoan "Binod" "9123456780" 500 50 10 UPI;
               AddCollection "L0002" 200 4 UPI] paid_off reachable_paid_off)
    as (_ & Hnot & Hfail).
  - vm_compute. apply elem_of_cons. by left.
  - split; [exact Hnot | exact Hfail].
Defined.

(** ** The collection log *)




Lemma collection_ids_exec o w :
  Collection.Collection_ID <$> Collections (sheets w)
    = collection_id_of <$> seq 1 (length (Collections (sheets w))) ->
  Collection.Collection_ID <$> Collections (sheets (exec o w))
    = collection_id_of <$> seq 1 (length (Collections (sheets (exec o w)))).
Proof.
  intros H. exec_cases o w; try done.
  - rewrite fmap_app, length_app, H. simpl.
    set (n := length (Collections (sheets w))).
    replace (n + 1)%nat with (S n) by lia. by rewrite seq_S, fmap_app.
  - rewrite fmap_app, length_app, H. simpl.
    set (n := length (Collections (sheets w))).
    replace (n + 1)%nat with (S n) by lia. by rewrite seq_S, fmap_app.
Qed.

(** X2: the identifiers on the collection log are [C00001], [C00002], ...
    in the order of the rows, and so pairwise distinct. *)
Theorem collection_ids_sequential_distinct w :
  reachable w ->
  Collection.Collection_ID <$> Collections (sheets w)
    = collection_id_of <$> seq 1 (length (Collections (sheets w)))
  /\ NoDup (Collection.Collection_ID <$> Collections (sheets w)).
Proof.
  intros Hreach.
  assert (Collection.Collection_ID <$> Collections (sheets w)
          = collection_id_of <$> seq 1 (length (Collections (sheets w))))
    as Hids.
  { induction Hreach as [clk t|o w _ IH]; [done|].
    by apply collection_ids_exec. }
  split; [exact Hids|].
  rewrite Hids. apply NoDup_fmap; [apply _|]. apply NoDup_seq.
Qed.

Lemma collection_ids_sequential_distinct_witness :
  Collection.Collection_ID <$> Collections (sheets paid_off)
  = ["C00001"%string; "C00002"%string].
Proof.
  destruct (collection_ids_sequential_distinct paid_off reachable_paid_off)
    as [Hids _].
  rewrite Hids. vm_compute. reflexivity.
Defined.


Lemma names_loan_exec o w :
  Forall (names_loan (sheets w)) (Collections (sheets w)) ->
  Forall (names_loan (sheets (exec o w))) (Collections (sheets (exec o w))).
Proof.
  intros H.
  assert (Forall (names_loan (sheets (exec o w))) (Collections (sheets w)))
    as Hold.
  { eapply Forall_impl; [exact H|]. intros c (l & Hl & Hid & Hparty).
    destruct (exec_keeps_static o w l Hl) as (l' & Hl' & Hs).
    exists l'. split; [done|]. unfold static in Hs. simplify_eq.
    split; congruence. }
  revert Hold. unfold names_loan, all_loans. exec_cases o w; intros Hold.
  - done.
  - done.
  - apply find_lookup in Hfind as [Hi Hid].
    apply Forall_app. split; [done|]. apply Forall_singleton.
    exists (collect amount r). simpl. split; [|done].
    rewrite fmap_app, !elem_of_app. right. right. simpl.
    apply elem_of_cons. by left.
  - apply find_lookup in Hfind as [Hi Hid].
    apply Forall_app. split; [done|]. apply Forall_singleton.
    exists (collect amount r). simpl. split; [|done].
    apply elem_of_app. left. eapply list_elem_of_lookup_2.
    by eapply lookup_insert_found.
  - done.
Qed.

(** X3: every row of the collection log names a loan that is on the active
    or the completed sheet, and carries the party name that loan has. *)
Theorem collections_name_existing_loans w c :
  reachable w ->
  c ∈ Collections (sheets w) ->
  exists l, l ∈ all_loans (sheets w)
            /\ Loan.Loan_ID l = Collection.Loan_ID c
            /\ Loan.Party_Name l = Collection.Party_Name c.
Proof.
  intros Hreach Hc.
  assert (Forall (names_loan (sheets w)) (Collections (sheets w))) as Hall.
  { clear Hc. induction Hreach as [clk t|o w _ IH]; [constructor|].
    by apply names_loan_exec. }
  by apply (proj1 (Forall_forall _ _) Hall).
Qed.

Lemma collections_name_existing_loans_witness :
  exists l, l ∈ all_loans (sheets paid_off)
            /\ Loan.Loan_ID l = "L0001"%string
            /\ Loan.Party_Name l = "Asha"%string.
Proof.
  apply (collections_name_existing_loans paid_off
           (Collection.mk "C00002" "2024-01-25 10:30:03" "L0001" "Asha" 600 6
                          Cash)
           reachable_paid_off).
  vm_compute. apply elem_of_cons. right. apply elem_of_cons. by left.
Defined.

(** ** Failure of [add_loan] *)

(** X6: [add_loan] raises nothing but [OverflowError], does so exactly when
    the creation day plus the term falls outside 0001-01-01 .. 9999-12-31,
    and then leaves the three sheets as they were. *)
Theorem add_loan_fails_only_on_overflow party mobile total daily days mode w :
  let end_day := toordinal (clock w (ticks w)) + days in
  match (add_loan party mobile total daily days mode w).1 with
  | inl e =>
      e = OverflowError
      /\ ~ (1 <= end_day <= Calendar.MAXORDINAL)
      /\ sheets (add_loan party mobile total daily days mode w).2 = sheets w
  | inr _ => 1 <= end_day <= Calendar.MAXORDINAL
  end.
Proof.
  intros end_day. unfold end_day.
  destruct (decide (1 <= toordinal (clock w (ticks w)) + days
                    <= Calendar.MAXORDINAL)) as [Hr|Hr].
  - by rewrite (add_loan_returns _ _ _ _ _ _ _ Hr).
  - by rewrite (add_loan_raises _ _ _ _ _ _ _ Hr).
Qed.

(** ** The dashboard *)




Lemma sum_with_nonempty {A} (f : A -> Z) l :
  match l with [] => 0 | _ => sum_with f l end = sum_with f l.
Proof. by destruct l. Qed.




(** * The pages *)

(** ** The entries of the "Select Customer" box *)

Lemma occurs_append c s1 s2 :
  occurs c (s1 +:+ s2) = occurs c s1 || occurs c s2.
Proof.
  induction s1 as [|a s1 IH]; simpl; [done|].
  rewrite IH. by destruct (Ascii.eqb a c).
Qed.

Lemma after_last_absent c s : occurs c s = false -> after_last c s = None.
Proof.
  induction s as [|a s IH]; simpl; [done|].
  intros [Ha Hs]%orb_false_elim. by rewrite IH, Ha.
Qed.

Lemma after_last_prefix c a s rest :
  after_last c s = Some rest -> after_last c (a +:+ s) = Some rest.
Proof. intros H. induction a as [|x a IH]; simpl; [done|]. by rewrite IH. Qed.

Lemma remove_char_absent c s : occurs c s = false -> remove_char c s = s.
Proof.
  induction s as [|a s IH]; simpl; [done|].
  intros [Ha Hs]%orb_false_elim. by rewrite Ha, IH.
Qed.

Lemma remove_char_append c s1 s2 :
  remove_char c (s1 +:+ s2) = remove_char c s1 +:+ remove_char c s2.
Proof.
  induction s1 as [|a s1 IH]; simpl; [done|].
  rewrite IH. by destruct (Ascii.eqb a c).
Qed.

Lemma append_empty_r s : s +:+ "" = s.
Proof.
  induction s as [|a s IH]; [done|].
  change (String a (s +:+ "") = String a s). by rewrite IH.
Qed.

(** An identifier without brackets is read back from its entry, whatever
    the party name. *)
Lemma chosen_loan_id_label party loan_id :
  occurs "(" loan_id = false -> occurs ")" loan_id = false ->
  chosen_loan_id (party +:+ " (" +:+ loan_id +:+ ")") = loan_id.
Proof.
  intros Hopen Hclose. unfold chosen_loan_id, last_field.
  rewrite (after_last_prefix _ _ _ (loan_id +:+ ")")).
  - simpl. rewrite remove_char_append, remove_char_absent by done.
    apply append_empty_r.
  - simpl. rewrite after_last_absent; [done|].
    rewrite !occurs_append, Hopen. reflexivity.
Qed.

Lemma eqb_digit_other a c :
  is_digit a = true -> is_digit c = false -> Ascii.eqb a c = false.
Proof.
  intros Ha Hc. destruct (Ascii.eqb_spec a c) as [<-|]; [congruence|done].
Qed.

Lemma occurs_digits c d :
  is_digit c = false -> occurs c (NilEmpty.string_of_uint d) = false.
Proof.
  intros Hc.
  induction d as [|d IH|d IH|d IH|d IH|d IH|d IH|d IH|d IH|d IH|d IH];
    cbn [occurs NilEmpty.string_of_uint]; [done|..];
    rewrite IH, orb_false_r; by apply eqb_digit_other.
Qed.

Lemma occurs_zeros c k : is_digit c = false -> occurs c (Fmt.zeros k) = false.
Proof.
  intros Hc. induction k as [|k IH]; cbn [occurs Fmt.zeros]; [done|].
  rewrite IH, orb_false_r. by apply eqb_digit_other.
Qed.

Lemma occurs_loan_id_of c n :
  is_digit c = false -> c <> "L"%char -> occurs c (loan_id_of n) = false.
Proof.
  intros Hc HL. unfold loan_id_of, Fmt.zfill, Fmt.str.
  change (occurs c ("L" +:+ ?s)) with (Ascii.eqb "L" c || occurs c s).
  rewrite occurs_append, occurs_zeros, occurs_digits by done.
  rewrite orb_false_r. destruct (Ascii.eqb_spec "L" c); [by subst|done].
Qed.

Lemma reachable_loan_id w loan_id :
  reachable w -> loan_id ∈ loan_ids (sheets w) ->
  exists n, loan_id = loan_id_of n.
Proof.
  intros Hreach Hin. pose proof (reachable_ids_sequential _ Hreach) as Hseq.
  unfold ids_sequential in Hseq. rewrite Hseq in Hin.
  apply list_elem_of_fmap in Hin as (n & -> & _). by exists n.
Qed.

(** X8: the identifier the page reads back from the entry of a loan in the
    "Select Customer" box is that loan's identifier, whatever its party
    name, brackets in it included. *)
Theorem chosen_loan_id_of_option_label w r :
  reachable w ->
  r ∈ Active_Loans (sheets w) ->
  chosen_loan_id (option_label r) = Loan.Loan_ID r.
Proof.
  intros Hreach Hr.
  destruct (reachable_loan_id w (Loan.Loan_ID r) Hreach) as [n Hn].
  { unfold loan_ids. apply elem_of_app. left. by apply list_elem_of_fmap_2. }
  unfold option_label. rewrite Hn.
  apply chosen_loan_id_label; by apply occurs_loan_id_of.
Qed.

Example chosen_loan_id_with_brackets :
  chosen_loan_id "Asha (Ravi's shop) (L0007)" = "L0007"%string.
Proof. reflexivity. Qed.

Lemma chosen_loan_id_of_option_label_witness :
  chosen_loan_id "Asha (L0001)" = "L0001"%string.
Proof.
  apply (chosen_loan_id_of_option_label one_loan
           (Loan.mk "L0001" "2024-01-25 10:30:00" "Asha" "9876543210" 1000
                    100 10 "2024-02-04" Cash 0 1000 "Active")
           reachable_one_loan).
  vm_compute. apply elem_of_cons. by left.
Defined.

(** ** The two forms *)







Lemma well_formed_collect amount r :
  well_formed r -> well_formed (collect amount r).
Proof. by intros H. Qed.







Example form_worlds :
  sheets form_part_paid = sheets part_paid
  /\ sheets form_paid_off = sheets paid_off.
Proof. vm_compute. split; reflexivity. Qed.

Example form_refusals :
  give_money "  " "9876543210" 1000 100 10 Cash fresh_world
  = (inr (st_error "Customer name required"), fresh_world)
  /\ give_money "Asha" "98765" 1000 100 10 Cash fresh_world
     = (inr (st_error "Enter valid 10-digit mobile number"), fresh_world)
  /\ give_money "Asha" "9876543210" 0 100 10 Cash fresh_world
     = (inr (st_error "Amounts must be greater than 0"), fresh_world)
  /\ collect_money "Asha (L0001)" 700 7 Cash form_part_paid
     = (inr (st_error "Cannot exceed remaining amount"), form_part_paid)
  /\ collect_money "Asha (L0001)" 100 1 Cash form_paid_off
     = (inr (st_info "No active loans"), form_paid_off).
Proof. vm_compute. repeat split. Qed.






(** ** The "Collection History" page *)

Section HistoryProperties.
Variable date_of : string -> Z.

Lemma foldr_min_le (df : list Collection.t) z :
  foldr (fun c acc => Z.min (date_of (Collection.Date c)) acc) z df <= z
  /\ Forall (fun c =>
       foldr (fun c acc => Z.min (date_of (Collection.Date c)) acc) z df
       <= date_of (Collection.Date c)) df.
Proof.
  induction df as [|c df [IHz IH]]; simpl; [split; [lia|constructor]|].
  split; [lia|]. constructor; [lia|].
  eapply Forall_impl; [exact IH|]. simpl. intros; lia.
Qed.

Lemma foldr_max_ge (df : list Collection.t) z :
  z <= foldr (fun c acc => Z.max (date_of (Collection.Date c)) acc) z df
  /\ Forall (fun c =>
       date_of (Collection.Date c)
       <= foldr (fun c acc => Z.max (date_of (Collection.Date c)) acc) z df)
       df.
Proof.
  induction df as [|c df [IHz IH]]; simpl; [split; [lia|constructor]|].
  split; [lia|]. constructor; [lia|].
  eapply Forall_impl; [exact IH|]. simpl. intros; lia.
Qed.

Lemma first_day_le df c :
  c ∈ df -> first_day date_of df <= date_of (Collection.Date c).
Proof.
  destruct df as [|c0 df]; [by intros ?%elem_of_nil|]. simpl.
  destruct (foldr_min_le df (date_of (Collection.Date c0))) as [Hz Hall].
  intros [Heq|Hin]%elem_of_cons; [by subst|].
  by apply (proj1 (Forall_forall _ _) Hall).
Qed.

Lemma last_day_ge df c :
  c ∈ df -> date_of (Collection.Date c) <= last_day date_of df.
Proof.
  destruct df as [|c0 df]; [by intros ?%elem_of_nil|]. simpl.
  destruct (foldr_max_ge df (date_of (Collection.Date c0))) as [Hz Hall].
  intros [Heq|Hin]%elem_of_cons; [by subst|].
  by apply (proj1 (Forall_forall _ _) Hall).
Qed.

Lemma filter_all {A} (P : A -> Prop) `{forall x, Decision (P x)} (l : list A) :
  Forall P l -> filter P l = l.
Proof.
  induction 1 as [|x l Hx _ IH]; [done|].
  by rewrite filter_cons, decide_True, IH.
Qed.

(** X12: with the range the page starts with, from the earliest to the
    latest day on the log, the history shows every collection, in the order
    of the log, and its total is the total collected of the dashboard. *)
Theorem history_default_range_shows_all w :
  Collections (sheets w) <> [] ->
  let df := Collections (sheets w) in
  collection_history date_of (first_day date_of df) (last_day date_of df) w
  = (inr (Some (sum_with Collection.Amount_Collected df, df)), w)
  /\ exists total_given remaining,
       dashboard w
       = (inr (total_given, sum_with Collection.Amount_Collected df,
               remaining), w).
Proof.
  intros Hne df. split.
  - unfold collection_history, bind, load_collections, ret. fold df.
    destruct df as [|c0 df'] eqn:Hdf; [done|]. rewrite <- Hdf.
    rewrite filter_all; [done|].
    apply Forall_forall. intros c Hc.
    split; [by apply first_day_le | by apply last_day_ge].
  - unfold dashboard, bind, load_active_loans, load_collections, ret.
    rewrite !sum_with_nonempty. by do 2 eexists.
Qed.



End HistoryProperties.

Example day_of_text_example :
  day_of_text "2024-01-25 10:30:00" = Calendar.ymd2ord 2024 1 25.
Proof. reflexivity. Qed.

Lemma history_default_range_shows_all_witness :
  exists shown,
    collection_history day_of_text
      (first_day day_of_text (Collections (sheets paid_off)))
      (last_day day_of_text (Collections (sheets paid_off))) paid_off
    = (inr (Some (1000, shown)), paid_off)
    /\ length shown = 2%nat.
Proof.
  destruct (history_default_range_shows_all day_of_text paid_off) as [Hall _].
  - vm_compute. discriminate.
  - eexists. split; [exact Hall | reflexivity].
Defined.


Example history_outside_range :
  collection_history day_of_text 738000 738100 paid_off
  = (inr (Some (0, [])), paid_off)
  /\ collection_history day_of_text 738000 738100 fresh_world
     = (inr None, fresh_world).
Proof. vm_compute. split; reflexivity. Qed.

(** * Authentication *)

Section AuthProperties.
Variable hash_password : string -> string.

Lemma matching_from k username (users : list User.t) :
  let ps := filter (fun p : nat * User.t => User.username p.2 = username)
                   (imap (fun i u => ((k + i)%nat, u)) users) in
  ps.*2 = filter (fun u => User.username u = username) users
  /\ Forall (fun p => exists j, p.1 = (k + j)%nat /\ users !! j = Some p.2) ps.
Proof.
  revert k. induction users as [|u users IH]; intros k; [by split|].
  cbn zeta. rewrite imap_cons.
  rewrite (imap_ext _ (fun i u => ((S k + i)%nat, u)))
    by (intros; simpl; f_equal; lia).
  destruct (IH (S k)) as [IH2 IH1]. cbn zeta in IH1, IH2.
  rewrite !filter_cons. simpl in *.
  destruct (decide (User.username u = username)).
  - rewrite fmap_cons, IH2. split; [done|]. constructor.
    + exists 0%nat. split; [simpl; lia|done].
    + eapply Forall_impl; [exact IH1|]. simpl.
      intros p (j & Hp & Hj). exists (S j). split; [lia|done].
  - split; [done|]. eapply Forall_impl; [exact IH1|]. simpl.
    intros p (j & Hp & Hj). exists (S j). split; [lia|done].
Qed.

Lemma matching_index_spec username (users : list User.t) :
  exists ps : list (nat * User.t),
    matching_index username users = ps.*1
    /\ ps.*2 = filter (fun u => User.username u = username) users
    /\ Forall (fun p => users !! p.1 = Some p.2) ps.
Proof.
  destruct (matching_from 0 username users) as [H2 H1].
  eexists. split; [reflexivity|]. split; [exact H2|].
  eapply Forall_impl; [exact H1|]. simpl. intros p (j & Hp & Hj).
  by rewrite Hp.
Qed.




Lemma change_password_cases users username old_password new_password :
  users <> [] ->
  change_password hash_password users username old_password new_password
  = inr (false, users)
  \/ exists i u,
       users !! i = Some u
       /\ filter (fun x => User.username x = username) users = [u]
       /\ User.password_hash u = hash_password old_password
       /\ change_password hash_password users username old_password
            new_password
          = inr (true,
                 alter (User.set_password_hash (hash_password new_password))
                       i users).
Proof.
  intros Hne.
  destruct (matching_index_spec username users) as (ps & Hidx & Hrows & Hat).
  unfold change_password. rewrite Hidx.
  destruct users as [|u0 users0] eqn:Husers; [done|]. rewrite <- Husers in *.
  destruct ps as [|[i u] [|??]]; simpl; [by left| |by left].
  apply Forall_cons in Hat as [Hat _]. simpl in Hat. rewrite Hat.
  destruct (decide (User.password_hash u = hash_password old_password));
    [|by left].
  right. exists i, u. by split_and!.
Qed.



(** X16: unless exactly one row carries the user name and holds the digest
    of the old password, [change_password] answers [False] and writes
    nothing; a user name that is on two rows can never change its
    password. *)
Theorem change_password_refuses users username old_password new_password :
  users <> [] ->
  (forall u, filter (fun x => User.username x = username) users = [u] ->
             User.password_hash u <> hash_password old_password) ->
  change_password hash_password users username old_password new_password
  = inr (false, users).
Proof.
  intros Hne Hbad.
  destruct (change_password_cases users username old_password new_password
              Hne) as [Hsame|(i & u & _ & Hone & Hhash & _)]; [done|].
  by destruct (Hbad u Hone).
Qed.

End AuthProperties.



Lemma change_password_refuses_witness :
  change_password toy_hash
    (User.mk "clerk" (toy_hash "other") "Clerk, evening" :: one_user)
    "clerk" "secret2" "secret9"
  = inr (false,
         User.mk "clerk" (toy_hash "other") "Clerk, evening" :: one_user)
  /\ change_password toy_hash one_user "clerk" "wrong" "secret9"
     = inr (false, one_user).
Proof.
  split.
  - apply change_password_refuses; [discriminate|].
    intros u Hu. vm_compute in Hu. discriminate Hu.
  - apply change_password_refuses; [discriminate|].
    intros u Hu. vm_compute in Hu. injection Hu as <-. discriminate.
Defined.

Example login_examples :
  verify_login toy_hash one_user "clerk" "secret2"
  = inr (true, Some "Clerk"%string)
  /\ verify_login toy_hash one_user "clerk" "secret1" = inr (false, None)
  /\ verify_login toy_hash one_user "nobody" "secret1" = inr (false, None)
  /\ verify_login toy_hash [] "clerk" "secret2" = inl KeyError
  /\ change_password toy_hash [] "clerk" "secret2" "secret9" = inl KeyError
  /\ verify_login toy_hash
       (User.mk "clerk" (toy_hash "other") "Clerk, evening" :: one_user)
       "clerk" "other"
     = inr (true, Some "Clerk, evening"%string).
Proof. vm_compute. repeat split. Qed.

(** * The cache in front of the loaders *)

Lemma cached_coherent {A} (slot : option (A * Z)) (read : A) now :
  (forall v at_, slot = Some (v, at_) -> v = read) ->
  (App.cached slot read now).1 = read
  /\ forall v at_, (App.cached slot read now).2 = Some (v, at_) -> v = read.
Proof.
  intros Hslot. unfold App.cached.
  destruct slot as [[v at_]|]; [|split; [done|by intros ?? [= <- _]]].
  destruct (now <? at_ + App.ttl); simpl.
  - split; [by apply (Hslot v at_)|].
    intros ?? [= <- _]. by apply (Hslot v at_).
  - split; [done|by intros ?? [= <- _]].
Qed.


(** X18: while no slot holds rows other than those on its sheet, which is so
    after every [save_all_data], a loader returns the rows now on the sheet,
    at any time, and leaves the sheets alone and the cache in that state. *)
Theorem loaders_read_the_sheets now s :
  App.coherent s ->
  ((App.load_active_loans now s).1 = Active_Loans (App.store s)
   /\ App.store (App.load_active_loans now s).2 = App.store s
   /\ App.coherent (App.load_active_loans now s).2)
  /\ ((App.load_completed_loans now s).1
      = Completed_Loans (App.store s)
      /\ App.store (App.load_completed_loans now s).2
         = App.store s
      /\ App.coherent (App.load_completed_loans now s).2)
  /\ ((App.load_collections now s).1 = Collections (App.store s)
      /\ App.store (App.load_collections now s).2 = App.store s
      /\ App.coherent (App.load_collections now s).2).
Proof.
  intros (Ha & Hc & Hl).
  unfold App.load_active_loans, App.load_completed_loans,
    App.load_collections, App.coherent.
  destruct (cached_coherent _ _ now Ha) as [Ha1 Ha2].
  destruct (cached_coherent _ _ now Hc) as [Hc1 Hc2].
  destruct (cached_coherent _ _ now Hl) as [Hl1 Hl2].
  destruct (App.cached (App.active_slot _) _ now) as [va sa].
  destruct (App.cached (App.completed_slot _) _ now) as [vc sc].
  destruct (App.cached (App.collections_slot _) _ now) as [vl sl].
  simpl in *. by split_and!.
Qed.

Lemma loaders_read_the_sheets_witness :
  let s := App.clear_cache
             (App.mk (sheets part_paid)
                         (App.mk_cache None None None)) in
  (App.load_active_loans 100 (App.load_active_loans 70 s).2).1
  = Active_Loans (sheets part_paid).
Proof.
  intros s.
  assert (App.coherent s) as Hs by (by split_and!).
  destruct (loaders_read_the_sheets 70 s Hs) as ((_ & Hstore & Hs') & _).
  destruct (loaders_read_the_sheets 100 _ Hs') as ((-> & _) & _).
  by rewrite Hstore.
Defined.

(** X19: rows read less than sixty seconds ago are returned again even when
    the sheet has been replaced from outside the app in between; from the
    sixtieth second on the sheet is read anew. *)
Theorem loader_serves_stale_rows_within_ttl s sheets' read_at now :
  let s1 := (App.load_active_loans read_at (App.clear_cache s)).2 in
  let s2 := App.written_elsewhere sheets' s1 in
  (now < read_at + 60 ->
   (App.load_active_loans now s2).1 = Active_Loans (App.store s))
  /\ (read_at + 60 <= now ->
      (App.load_active_loans now s2).1 = Active_Loans sheets').
Proof.
  cbn zeta. unfold App.load_active_loans, App.cached, App.ttl.
  simpl. split; intros Hnow.
  - by rewrite (proj2 (Z.ltb_lt _ _) Hnow).
  - by rewrite (proj2 (Z.ltb_ge _ _) Hnow).
Qed.

Lemma loader_serves_stale_rows_within_ttl_witness :
  let s := App.mk (sheets one_loan) (App.mk_cache None None None) in
  let s2 := App.written_elsewhere (sheets part_paid)
              (App.load_active_loans 0 (App.clear_cache s)).2 in
  (App.load_active_loans 59 s2).1 = Active_Loans (sheets one_loan)
  /\ (App.load_active_loans 60 s2).1 = Active_Loans (sheets part_paid).
Proof.
  intros s s2.
  destruct (loader_serves_stale_rows_within_ttl s (sheets part_paid) 0 59)
    as [Hstale _].
  destruct (loader_serves_stale_rows_within_ttl s (sheets part_paid) 0 60)
    as [_ Hfresh].
  split; [apply Hstale; lia | apply Hfresh; lia].
Defined.

(** * Amounts the forms would refuse *)


